(** * stock_project: the real-time round-robin investment analysis

    A shallow embedding of [app_real_time_data.py]: the three data tools,
    the four assistant agents, the termination condition, the round-robin
    team and the polling loop, followed by the properties of the
    specification that are checked against them.

    Conventions.
    - A Python call that may raise returns a [PyResult]; a loop that may
      not finish within the turns it is given returns an [Outcome].
    - Remote services (the Azure AI Agents project, yfinance, the chat
      model) are not part of the repository.  Their replies are taken
      from an interface ([Class]) and their observable state is passed
      explicitly.
    - [print] calls inside the tools are not modelled; the output of the
      polling loop is. *)

From Stdlib Require Import ZArith Lia.
From stdpp Require Import base option list strings pretty gmap.

(** ** Python values, exceptions and results *)

Inductive Exception : Type :=
| IndexError
| KeyError
| TypeError
| HttpResponseError
| BackendUnavailable
| RunFailed.

Inductive PyResult (A : Type) : Type :=
| Return (a : A)
| Raise (e : Exception).
Arguments Return {A} a.
Arguments Raise {A} e.

(** The result of code that contains a loop: [Running] says that the
    loop has not left within the number of iterations it was given. *)
Inductive Outcome (A : Type) : Type :=
| Returned (a : A)
| Raised (e : Exception)
| Running.
Arguments Returned {A} a.
Arguments Raised {A} e.
Arguments Running {A}.

(** [needle in hay] on Python strings. *)
Fixpoint contains (needle hay : string) : bool :=
  String.prefix needle hay ||
  match hay with
  | EmptyString => false
  | String _ rest => contains needle rest
  end.

(** Values of the JSON-like objects the Azure SDK hands back. *)
#[local] Set Warnings "-register-all".
Inductive Json : Type :=
| JStr (s : string)
| JList (items : list Json)
| JDict (fields : list (string * Json)).

Fixpoint assoc (key : string) (fields : list (string * Json)) : option Json :=
  match fields with
  | [] => None
  | (k, v) :: rest => if String.eqb k key then Some v else assoc key rest
  end.

(** [obj[key]] with a string key. *)
Definition getitem (obj : Json) (key : string) : PyResult Json :=
  match obj with
  | JDict fields =>
      match assoc key fields with
      | Some v => Return v
      | None => Raise KeyError
      end
  | JList _ | JStr _ => Raise TypeError
  end.

(** [obj[i]] with a non-negative integer index. *)
Definition getindex (obj : Json) (i : nat) : PyResult Json :=
  match obj with
  | JList items =>
      match items !! i with
      | Some v => Return v
      | None => Raise IndexError
      end
  | JStr s =>
      match String.get i s with
      | Some c => Return (JStr (String c EmptyString))
      | None => Raise IndexError
      end
  | JDict _ => Raise KeyError
  end.

Definition and_then {A B} (r : PyResult A) (k : A -> PyResult B) : PyResult B :=
  match r with
  | Return a => k a
  | Raise e => Raise e
  end.

(** ** The Azure AI Agents project ([project_client.agents])

    The remote project holds the assistants and threads that exist at
    the service.  Only [delete_agent] removes anything; the SDK's thread
    deletion is never called by the program.

    Of the calls the tools make, the run is the one taken to be able to
    fail at the service; a failure of the service in creating, posting,
    listing or deleting is outside this model, and no property below
    speaks about such a path. *)

Record Project : Type := {
  agents : gmap nat string;        (* live assistants: id to instructions *)
  threads : gmap nat (list Json);  (* live threads: id to messages, newest first *)
  next_id : nat;
}.

Definition Remote (A : Type) : Type := Project -> PyResult A * Project.

Definition bind {A B} (m : Remote A) (k : A -> Remote B) : Remote B :=
  fun p =>
    match m p with
    | (Return a, p') => k a p'
    | (Raise e, p') => (Raise e, p')
    end.

Definition lift {A} (r : PyResult A) : Remote A := fun p => (r, p).

Notation "'let*' x ':=' m 'in' k" := (bind m (fun x => k))
  (at level 10, x name, m at level 100, k at level 200).
Notation "m '>>' k" := (bind m (fun _ => k))
  (at level 90, right associativity).

(** What the service does with a run is its own business: given the
    assistant's instructions and the thread's messages it either fails
    or leaves the thread with some list of messages. *)
Class AgentsService : Type := {
  process_run : string -> list Json -> PyResult (list Json);
}.

Definition text_message (role content : string) : Json :=
  JDict [("role", JStr role);
         ("content",
          JList [JDict [("type", JStr "text");
                        ("text", JDict [("value", JStr content)])]])].

(** [create_agent]; the Bing grounding tool definitions and the preview
    header it is also given configure the assistant at the service and
    are left out. *)
Definition create_agent (model name instructions : string) : Remote nat :=
  fun p =>
    (Return (next_id p),
     {| agents := <[next_id p := instructions]> (agents p);
        threads := threads p;
        next_id := S (next_id p) |}).

Definition create_thread : Remote nat :=
  fun p =>
    (Return (next_id p),
     {| agents := agents p;
        threads := <[next_id p := []]> (threads p);
        next_id := S (next_id p) |}).

Definition create_message (thread_id : nat) (role content : string) : Remote unit :=
  fun p =>
    match threads p !! thread_id with
    | Some msgs =>
        (Return tt,
         {| agents := agents p;
            threads := <[thread_id := text_message role content :: msgs]> (threads p);
            next_id := next_id p |})
    | None => (Raise HttpResponseError, p)
    end.

Definition create_and_process_run `{AgentsService}
    (thread_id assistant_id : nat) : Remote unit :=
  fun p =>
    match threads p !! thread_id, agents p !! assistant_id with
    | Some msgs, Some instructions =>
        match process_run instructions msgs with
        | Return msgs' =>
            (Return tt,
             {| agents := agents p;
                threads := <[thread_id := msgs']> (threads p);
                next_id := next_id p |})
        | Raise e => (Raise e, p)
        end
    | _, _ => (Raise HttpResponseError, p)
    end.

Definition list_messages (thread_id : nat) : Remote Json :=
  fun p =>
    match threads p !! thread_id with
    | Some msgs => (Return (JDict [("data", JList msgs)]), p)
    | None => (Raise HttpResponseError, p)
    end.

Definition delete_agent (agent_id : nat) : Remote unit :=
  fun p =>
    (Return tt,
     {| agents := delete agent_id (agents p);
        threads := threads p;
        next_id := next_id p |}).

(** [messages["data"][0]["content"][0]["text"]["value"]] *)
Definition first_text_value (messages : Json) : PyResult Json :=
  and_then (getitem messages "data") (fun data =>
  and_then (getindex data 0) (fun m =>
  and_then (getitem m "content") (fun content =>
  and_then (getindex content 0) (fun part =>
  and_then (getitem part "text") (fun text =>
  getitem text "value"))))).

(** ** Tool definitions *)

(** Bing-based stock trend summary. *)
Definition stock_price_trends_tool `{AgentsService} (stock_name : string) : Remote Json :=
  let* agent := create_agent "gpt-4o" "stock_trends_agent_tool"
      ("Summarize recent price movements and trends for " +:+ stock_name +:+ ".") in
  let* thread := create_thread in
  create_message thread "user"
      ("Get stock price trends for " +:+ stock_name +:+ ".") >>
  create_and_process_run thread agent >>
  let* messages := list_messages thread in
  delete_agent agent >>
  lift (first_text_value messages).

(** yfinance: the one-day history of a ticker, one row per bar, with the
    bar's timestamp (the frame's index) and its close.  Floats and their
    [.2f] rendering, timestamps and [strftime] belong to Python. *)
Class YFinance : Type := {
  Timestamp : Type;
  float : Type;
  history : string -> string -> string -> list (Timestamp * float);
  strftime : Timestamp -> string -> string;
  format_2f : float -> string;
}.

Definition empty {A} (data : list A) : bool :=
  match data with [] => true | _ :: _ => false end.

(** Fetch current stock price using yfinance (real-time). *)
Definition realtime_stock_price_tool `{YFinance} (stock_name : string) : PyResult string :=
  let data := history stock_name "1d" "1m" in
  if empty data then
    Return ("Could not fetch real-time price for " +:+ stock_name +:+ ".")
  else
    match last data with
    | Some (index, close) =>
        let current_price := close in
        let timestamp := strftime index "%Y-%m-%d %H:%M:%S" in
        Return ("As of " +:+ timestamp +:+ ", the real-time price of " +:+ stock_name
                +:+ " is ₹" +:+ format_2f current_price +:+ ".")
    | None => Raise IndexError
    end.

(** Bing-based news. *)
Definition news_analysis_tool `{AgentsService} (stock_name : string) : Remote Json :=
  let* agent := create_agent "gpt-4o" "news_analysis_tool_agent"
      ("Summarize the latest financial news for " +:+ stock_name +:+ ".") in
  let* thread := create_thread in
  create_message thread "user"
      ("Find the latest stock news about " +:+ stock_name +:+ ".") >>
  create_and_process_run thread agent >>
  let* messages := list_messages thread in
  delete_agent agent >>
  lift (first_text_value messages).

(** ** The agent-chat library ([autogen_agentchat])

    The library is imported, not part of the repository: its messages,
    agents, termination conditions and round-robin team are modelled
    here from the specification's description of them. *)

(** Modelled from the spec: the library's chat message, which is
    missing from the sources (section 3, Message: sender, content and
    turn index). *)
Record Message : Type := {
  sender : string;
  content : string;
  turn_index : nat;
}.

Inductive Tool : Type :=
| StockPriceTrendsTool
| RealtimeStockPriceTool
| NewsAnalysisTool.

(** Modelled from the spec: the library's [AssistantAgent], which is
    missing from the sources (section 3, Agent: a name, a system
    instruction and the tools it may call; the model backend it is bound
    to is the shared [ModelClient] below). *)
Record AssistantAgent : Type := {
  name : string;
  tools : list Tool;
  system_message : string;
}.

(** The chat model behind the agents ([az_model_client]).  One call is
    one turn of an agent, tool calls included: given the agent, the task
    and the transcript so far it answers with the reply's text, or with
    nothing when the backend is unreachable or errors.  [B] is whatever
    state the backend has. *)
Class ModelClient (B : Type) : Type := {
  create : AssistantAgent -> string -> list Message -> B -> option string * B;
}.

(** Modelled from the spec: the library's agent turn, which is missing
    from the sources (section 4.2: [take_turn(transcript_so_far)] gives
    one message, and a backend failure fails the turn). *)
Definition take_turn {B} `{ModelClient B} (agent : AssistantAgent) (task : string)
    (transcript : list Message) (s : B) : PyResult Message * B :=
  match create agent task transcript s with
  | (Some reply, s') =>
      (Return {| sender := name agent;
                 content := reply;
                 turn_index := length transcript |}, s')
  | (None, s') => (Raise BackendUnavailable, s')
  end.

(** Modelled from the spec: the library's termination conditions, which
    are missing from the sources (section 4.3: text-mention and
    max-message-count primitives, composed into a boolean tree). *)
Inductive TerminationCondition : Type :=
| TextMentionTermination (text : string)
| MaxMessageTermination (max_messages : nat)
| OrTermination (left right : TerminationCondition)
| AndTermination (left right : TerminationCondition).

Definition mentions (text : string) (transcript : list Message) : bool :=
  existsb (fun m => contains text (content m)) transcript.

(** Modelled from the spec: the library's evaluation of a termination
    condition, which is missing from the sources (section 4.3:
    text-mention is true iff some message content contains the marker,
    max-message-count iff the transcript length is at least the bound). *)
Fixpoint should_stop (c : TerminationCondition) (transcript : list Message) : bool :=
  match c with
  | TextMentionTermination text => mentions text transcript
  | MaxMessageTermination max_messages => max_messages <=? length transcript
  | OrTermination l r => should_stop l transcript || should_stop r transcript
  | AndTermination l r => should_stop l transcript && should_stop r transcript
  end.

(** Modelled from the spec: the library's [RoundRobinGroupChat], which is
    missing from the sources (section 3, ConversationRun: the ordered
    participants and the termination tree). *)
Record RoundRobinGroupChat : Type := {
  participants : list AssistantAgent;
  termination_condition : TerminationCondition;
}.

(** Modelled from the spec: the library's scheduler loop, which is
    missing from the sources (section 4.4: the next agent is the one at
    position transcript length mod number of agents; its message is
    appended, then the termination condition is evaluated; a failed turn
    aborts the run with a run-failed error).  [turns] bounds the number
    of turns taken; a team without participants has nobody to give the
    turn to, and its run fails. *)
Fixpoint run_turns {B} `{ModelClient B} (turns : nat) (team : RoundRobinGroupChat)
    (task : string) (transcript : list Message) (s : B)
    : Outcome (list Message) * B :=
  match turns with
  | O => (Running, s)
  | S turns' =>
      let n := length (participants team) in
      match participants team !! (length transcript mod n) with
      | None => (Raised RunFailed, s)
      | Some agent =>
          match take_turn agent task transcript s with
          | (Raise _, s') => (Raised RunFailed, s')
          | (Return m, s') =>
              let transcript' := transcript ++ [m] in
              if should_stop (termination_condition team) transcript'
              then (Returned transcript', s')
              else run_turns turns' team task transcript' s'
          end
      end
  end.

(** Modelled from the spec: the library's [run_stream], which is missing
    from the sources (section 4.4: starting a run seeds an empty
    transcript). *)
Definition run_stream {B} `{ModelClient B} (turns : nat) (team : RoundRobinGroupChat)
    (task : string) (s : B) : Outcome (list Message) * B :=
  run_turns turns team task [] s.

(** The message at position [k] of a transcript was sent by the agent at
    position [k mod N] of the team's roster and carries [k] as its turn
    index. *)
Definition in_round_robin_order (team : RoundRobinGroupChat) (t : list Message) : Prop :=
  forall k m, t !! k = Some m ->
    exists agent,
      participants team !! (k mod length (participants team)) = Some agent /\
      sender m = name agent /\ turn_index m = k.

(** The backend always answers, and never with the marker. *)
Definition never_mentions {B} `{ModelClient B} (marker : string) : Prop :=
  forall agent task transcript s,
    exists reply,
      fst (create agent task transcript s) = Some reply /\
      contains marker reply = false.

(** ** Assistant agents *)

Definition stock_trends_agent_assistant : AssistantAgent := {|
  name := "stock_trends_agent";
  tools := [StockPriceTrendsTool; RealtimeStockPriceTool];
  system_message :=
    "You are the Stock Trends Agent. You analyze both historical and real-time data "
    +:+ "to summarize current stock movement patterns.";
|}.

Definition news_agent_assistant : AssistantAgent := {|
  name := "news_agent";
  tools := [NewsAnalysisTool];
  system_message :=
    "You are the News Agent. Retrieve and summarize the latest relevant news for the stock.";
|}.

Definition sentiment_agent_assistant : AssistantAgent := {|
  name := "sentiment_agent";
  tools := [];
  system_message :=
    "You are the Sentiment Agent. Summarize the overall market mood "
    +:+ "and investor confidence for the given stock.";
|}.

Definition decision_agent_assistant : AssistantAgent := {|
  name := "decision_agent";
  tools := [];
  system_message :=
    "You are the Decision Agent. Combine insights from trends, real-time prices, and news "
    +:+ "to decide whether to INVEST or NOT INVEST. End with 'Decision Made'.";
|}.

(** ** Round robin group chat *)

Definition termination : TerminationCondition :=
  OrTermination (TextMentionTermination "Decision Made") (MaxMessageTermination 15).

Definition investment_team : RoundRobinGroupChat := {|
  participants :=
    [ stock_trends_agent_assistant;
      news_agent_assistant;
      sentiment_agent_assistant;
      decision_agent_assistant ];
  termination_condition := termination;
|}.

(** ** Main loop (real-time updates) *)

(** What the loop does that can be seen from outside: the banner it
    prints, the conversation the console has rendered once the run is
    over, the waiting notice and the sleep.  What the console showed of
    a run that raised is not recorded. *)
Inductive Event : Type :=
| Banner
| Console (transcript : list Message)
| Waiting (interval : Z)
| Sleep (interval : Z).

Record World (B : Type) : Type := {
  backend : B;
  output : list Event;
}.
Arguments backend {B} w.
Arguments output {B} w.

Definition emit {B} (e : Event) (w : World B) : World B :=
  {| backend := backend w; output := output w ++ [e] |}.

(** [investment_team.run_stream(task=...)] consumed by [Console]: the
    loop only needs to know that the call returns a transcript, raises,
    or does not come back, and that it may change the state [B] of the
    library and of the services behind it. *)
Class GroupChat (B : Type) : Type := {
  team_run_stream : string -> B -> Outcome (list Message) * B;
}.

Definition analysis_task (stock_name : string) : string :=
  "Analyze trends, real-time prices, and latest news for " +:+ stock_name +:+ ". "
  +:+ "Then make an investment decision.".

(** Run real-time analysis every N seconds.  [cycles] bounds the number
    of iterations of [while True] that are followed. *)
Fixpoint run_realtime_analysis {B} `{GroupChat B} (cycles : nat) (stock_name : string)
    (interval : Z) (w : World B) : Outcome unit * World B :=
  match cycles with
  | O => (Running, w)
  | S cycles' =>
      let w := emit Banner w in
      match team_run_stream (analysis_task stock_name) (backend w) with
      | (Returned transcript, s') =>
          let w := {| backend := s'; output := output w ++ [Console transcript] |} in
          let w := emit (Waiting interval) w in
          let w := emit (Sleep interval) w in
          run_realtime_analysis cycles' stock_name interval w
      | (Raised e, s') => (Raised e, {| backend := s'; output := output w |})
      | (Running, s') => (Running, {| backend := s'; output := output w |})
      end
  end.

Definition default_interval : Z := 60.

Definition main {B} `{GroupChat B} (cycles : nat) (w : World B) : Outcome unit * World B :=
  let stock_name := "ICICIBANK.NS" in
  run_realtime_analysis cycles stock_name 60 w.

(** One complete iteration of the loop from [w], when the run comes
    back: what the world is when the sleep is over. *)
Definition cycle {B} `{GroupChat B} (stock_name : string) (interval : Z)
    (w : World B) : option (World B) :=
  match team_run_stream (analysis_task stock_name) (backend w) with
  | (Returned transcript, s') =>
      Some {| backend := s';
              output := output w ++ [Banner; Console transcript;
                                     Waiting interval; Sleep interval] |}
  | _ => None
  end.

(** [k] complete iterations in a row. *)
Fixpoint cycles_done {B} `{GroupChat B} (k : nat) (stock_name : string) (interval : Z)
    (w : World B) : option (World B) :=
  match k with
  | O => Some w
  | S k' =>
      match cycle stock_name interval w with
      | Some w' => cycles_done k' stock_name interval w'
      | None => None
      end
  end.

(** The runs of the team in a row, as the loop makes them: the state in
    which the [i]-th run starts when the first starts in [s0] and every
    later one starts where the run before it ended; that run; and the
    transcript it returned, if it returned. *)
Definition state_before_run {B} `{GroupChat B} (task : string) (s0 : B) (i : nat) : B :=
  Nat.iter i (fun s => snd (team_run_stream task s)) s0.

Definition nth_run {B} `{GroupChat B} (task : string) (s0 : B) (i : nat)
    : Outcome (list Message) * B :=
  team_run_stream task (state_before_run task s0 i).

Definition nth_transcript {B} `{GroupChat B} (task : string) (s0 : B) (i : nat)
    : list Message :=
  match fst (nth_run task s0 i) with
  | Returned transcript => transcript
  | _ => []
  end.

(** What one complete iteration of the loop adds to the output. *)
Definition cycle_events (interval : Z) (transcript : list Message) : list Event :=
  [Banner; Console transcript; Waiting interval; Sleep interval].

(** The deployed team behind the loop: [investment_team] run by the
    scheduler above, each run being given [turns] turns. *)
Definition deployed_team {B} `{ModelClient B} (turns : nat) : GroupChat B := {|
  team_run_stream := run_stream turns investment_team;
|}.

(** ** Stand-ins for the remote services

    Small, fully computable services on which the functions above can be
    run. *)

(** A price feed with no bars for any symbol except ["ICICIBANK.NS"],
    whose last bar closed at 1437.50 at 15:29.  Prices are kept in
    paise, timestamps as the text [strftime] would give. *)
Definition paise_2f (p : Z) : string :=
  let cents := (p mod 100)%Z in
  pretty (p / 100)%Z +:+ "." +:+ (if (cents <? 10)%Z then "0" else "") +:+ pretty cents.

Definition sample_feed : YFinance := {|
  Timestamp := string;
  float := Z;
  history symbol period interval :=
    if String.eqb symbol "ICICIBANK.NS"
    then [("2025-01-02 15:28:00", 143700%Z); ("2025-01-02 15:29:00", 143750%Z)]
    else [];
  strftime t fmt := t;
  format_2f := paise_2f;
|}.

Definition empty_project : Project :=
  {| agents := ∅; threads := ∅; next_id := 0 |}.

(** The service answers every run with one assistant message. *)
Definition answering_service (reply : string) : AgentsService := {|
  process_run instructions msgs := Return (text_message "assistant" reply :: msgs);
|}.

(** The service answers with an assistant message that has no content
    parts. *)
Definition contentless_service : AgentsService := {|
  process_run instructions msgs :=
    Return (JDict [("role", JStr "assistant"); ("content", JList [])] :: msgs);
|}.

(** The service lists no message at all for the thread. *)
Definition silent_service : AgentsService := {|
  process_run instructions msgs := Return [];
|}.

(** The run itself fails at the service. *)
Definition failing_service : AgentsService := {|
  process_run instructions msgs := Raise HttpResponseError;
|}.

(** A chat model that is always reachable and never decides. *)
Definition quiet_model : ModelClient unit := {|
  create agent task transcript s := (Some "HOLD", s);
|}.

(** A chat model whose decision agent always concludes. *)
Definition deciding_model : ModelClient unit := {|
  create agent task transcript s :=
    (Some (if String.eqb (name agent) "decision_agent"
           then "INVEST. Decision Made."
           else "noted"), s);
|}.

Definition one_line (n : nat) : list Message :=
  [{| sender := "decision_agent"; content := "Decision Made"; turn_index := n |}].

(** A team whose every run comes back; the state counts the runs. *)
Definition steady_team : GroupChat nat := {|
  team_run_stream task s := (Returned (one_line s), S s);
|}.

(** A team whose first run fails and whose later runs would come back. *)
Definition outage_team : GroupChat nat := {|
  team_run_stream task s :=
    match s with
    | O => (Raised RunFailed, 1)
    | S _ => (Returned (one_line s), S s)
    end;
|}.

(** A team whose first two runs come back and whose third run fails. *)
Definition third_run_fails_team : GroupChat nat := {|
  team_run_stream task s :=
    match s with
    | 2 => (Raised RunFailed, 3)
    | _ => (Returned (one_line s), S s)
    end;
|}.

Definition fresh_world : World nat := {| backend := 0; output := [] |}.

(** ** Vocabulary of the further properties *)

(** What the two Bing-grounded tools tell the service: the instructions
    of the assistant they create and the one user message they post. *)
Definition trends_instructions (stock_name : string) : string :=
  "Summarize recent price movements and trends for " +:+ stock_name +:+ ".".

Definition trends_prompt (stock_name : string) : string :=
  "Get stock price trends for " +:+ stock_name +:+ ".".

Definition news_instructions (stock_name : string) : string :=
  "Summarize the latest financial news for " +:+ stock_name +:+ ".".

Definition news_prompt (stock_name : string) : string :=
  "Find the latest stock news about " +:+ stock_name +:+ ".".

(** A project in which another assistant and another thread live. *)
Definition busy_project : Project :=
  {| agents := {[ 7 := "You are somebody else's assistant." ]};
     threads := {[ 8 := [text_message "user" "hello"] ]};
     next_id := 9 |}.

(** A team that only answers the task about ICICIBANK.NS, as
    [steady_team] does, and fails on every other task. *)
Definition picky_team : GroupChat nat := {|
  team_run_stream task s :=
    if String.eqb task (analysis_task "ICICIBANK.NS")
    then (Returned (one_line s), S s)
    else (Raised RunFailed, s);
|}.

(** * Properties *)

(** ** The data tools *)

Lemma last_nonempty {A} (data : list A) : data <> [] -> exists row, last data = Some row.
Proof.
  intros Hne. destruct (last data) as [row|] eqn:Hlast; [by exists row|].
  by apply last_None in Hlast.
Qed.

(** C10.  For every symbol, [realtime_stock_price_tool] returns the
    sentinel "Could not fetch real-time price for <symbol>." exactly
    when the one-day, one-minute history is empty; otherwise it returns
    the message built from the timestamp of the last bar and its close
    rendered with [.2f]; it never raises and the text it returns is
    never empty. *)
Theorem realtime_stock_price_tool_spec `{YFinance} (stock_name : string) :
  let data := history stock_name "1d" "1m" in
  (realtime_stock_price_tool stock_name
     = Return ("Could not fetch real-time price for " +:+ stock_name +:+ ".")
   <-> data = []) /\
  (data <> [] ->
   exists index close,
     last data = Some (index, close) /\
     realtime_stock_price_tool stock_name
       = Return ("As of " +:+ strftime index "%Y-%m-%d %H:%M:%S"
                 +:+ ", the real-time price of " +:+ stock_name
                 +:+ " is ₹" +:+ format_2f close +:+ ".")) /\
  (exists text, realtime_stock_price_tool stock_name = Return text /\ text <> "").
Proof.
  intros data. unfold realtime_stock_price_tool. fold data.
  destruct data as [|row rest] eqn:Hdata.
  - simpl. split; [done|]. split; [done|]. eexists; split; [done|]. done.
  - assert (Hne : row :: rest <> []) by done.
    destruct (last_nonempty _ Hne) as [[index close] Hlast].
    simpl empty. cbv iota. rewrite Hlast.
    split; [split; [intros Heq; simplify_eq/= | done]|].
    split; [intros _; by exists index, close|].
    eexists; split; [done|]. done.
Qed.

Lemma realtime_stock_price_tool_spec_witness :
  @history sample_feed "ICICIBANK.NS" "1d" "1m" <> [] /\
  @realtime_stock_price_tool sample_feed "ICICIBANK.NS"
    = Return "As of 2025-01-02 15:29:00, the real-time price of ICICIBANK.NS is ₹1437.50.".
Proof.
  assert (Hne : @history sample_feed "ICICIBANK.NS" "1d" "1m" <> []) by discriminate.
  split; [exact Hne|].
  destruct (@realtime_stock_price_tool_spec sample_feed "ICICIBANK.NS")
    as (_ & Hsome & _).
  destruct (Hsome Hne) as (index & close & Hlast & Heq).
  injection Hlast as <- <-. exact Heq.
Defined.

Ltac run_remote :=
  unfold bind, create_agent, create_thread, create_message,
    create_and_process_run, list_messages, delete_agent, lift; simpl;
  repeat (rewrite ?lookup_insert_eq, ?lookup_insert_ne by lia; simpl).

(** In whatever state the project is and whatever the symbol, a thread
    whose newest message has no content part, or for which no message is
    listed, makes the Bing-grounded tools raise. *)
Lemma stock_price_trends_tool_no_guard (stock_name : string) (p : Project) :
  fst (@stock_price_trends_tool contentless_service stock_name p) = Raise IndexError /\
  fst (@stock_price_trends_tool silent_service stock_name p) = Raise IndexError.
Proof. split; unfold stock_price_trends_tool; run_remote; reflexivity. Qed.

Lemma news_analysis_tool_no_guard (stock_name : string) (p : Project) :
  fst (@news_analysis_tool contentless_service stock_name p) = Raise IndexError /\
  fst (@news_analysis_tool silent_service stock_name p) = Raise IndexError.
Proof. split; unfold news_analysis_tool; run_remote; reflexivity. Qed.

(** C4.  The two Bing-grounded tools have no sentinel: when the service
    leaves the thread's newest message without content parts, or lists
    no message at all, both raise [IndexError], whereas the real-time
    price tool answers an empty history with its sentinel. *)
Theorem bing_tools_raise_without_data :
  fst (@stock_price_trends_tool contentless_service "ICICIBANK.NS" empty_project)
    = Raise IndexError /\
  fst (@news_analysis_tool contentless_service "ICICIBANK.NS" empty_project)
    = Raise IndexError /\
  fst (@stock_price_trends_tool silent_service "ICICIBANK.NS" empty_project)
    = Raise IndexError /\
  fst (@news_analysis_tool silent_service "ICICIBANK.NS" empty_project)
    = Raise IndexError /\
  @realtime_stock_price_tool sample_feed "NOPE"
    = Return "Could not fetch real-time price for NOPE.".
Proof. repeat split; vm_compute; reflexivity. Qed.

(** Whatever the service does with the run, the thread a Bing-grounded
    tool created is still there when the call is over. *)
Lemma stock_price_trends_tool_thread_stays `{AgentsService}
    (stock_name : string) (p : Project) :
  is_Some (threads (snd (stock_price_trends_tool stock_name p)) !! S (next_id p)).
Proof.
  unfold stock_price_trends_tool. run_remote.
  destruct (process_run _ _) as [msgs'|e]; run_remote; by eexists.
Qed.

Lemma news_analysis_tool_thread_stays `{AgentsService}
    (stock_name : string) (p : Project) :
  is_Some (threads (snd (news_analysis_tool stock_name p)) !! S (next_id p)).
Proof.
  unfold news_analysis_tool. run_remote.
  destruct (process_run _ _) as [msgs'|e]; run_remote; by eexists.
Qed.

(** C7.  Neither Bing-grounded tool releases what it created.  When the
    run succeeds the assistant is deleted but the thread stays; when the
    run fails at the service both the assistant and the thread stay. *)
Theorem bing_tools_leave_remote_resources :
  let ok := @stock_price_trends_tool (answering_service "up 2%") "ICICIBANK.NS" empty_project in
  let ko := @stock_price_trends_tool failing_service "ICICIBANK.NS" empty_project in
  let news_ok := @news_analysis_tool (answering_service "calm") "ICICIBANK.NS" empty_project in
  let news_ko := @news_analysis_tool failing_service "ICICIBANK.NS" empty_project in
  (fst ok = Return (JStr "up 2%") /\
   dom (agents (snd ok)) = ∅ /\ dom (threads (snd ok)) = {[ 1 ]}) /\
  (fst ko = Raise HttpResponseError /\
   dom (agents (snd ko)) = {[ 0 ]} /\ dom (threads (snd ko)) = {[ 1 ]}) /\
  (fst news_ok = Return (JStr "calm") /\
   dom (agents (snd news_ok)) = ∅ /\ dom (threads (snd news_ok)) = {[ 1 ]}) /\
  (fst news_ko = Raise HttpResponseError /\
   dom (agents (snd news_ko)) = {[ 0 ]} /\ dom (threads (snd news_ko)) = {[ 1 ]}).
Proof. repeat split; vm_compute; reflexivity. Qed.

(** ** The termination condition *)

Lemma mentions_app (text : string) (t ext : list Message) :
  mentions text (t ++ ext) = mentions text t || mentions text ext.
Proof. unfold mentions. apply existsb_app. Qed.

(** C3.  For every termination tree built from text-mention and
    max-message-count primitives with OR and AND, [should_stop] is
    monotonic in the transcript: once true on [t] it is true on every
    extension [t ++ ext]. *)
Theorem should_stop_monotone (c : TerminationCondition) (t ext : list Message) :
  should_stop c t = true -> should_stop c (t ++ ext) = true.
Proof.
  induction c as [text|cap|l IHl r IHr|l IHl r IHr]; simpl.
  - rewrite mentions_app. intros ->. done.
  - rewrite length_app. intros Hcap%Nat.leb_le. apply Nat.leb_le. lia.
  - intros [Hl|Hr]%orb_true_iff; apply orb_true_iff; [left|right]; auto.
  - intros [Hl Hr]%andb_true_iff. apply andb_true_iff. auto.
Qed.

Lemma should_stop_monotone_witness :
  should_stop termination (one_line 0) = true /\
  should_stop termination (one_line 0 ++ one_line 1) = true.
Proof.
  split; [reflexivity|].
  apply (should_stop_monotone termination (one_line 0) (one_line 1)). reflexivity.
Defined.

(** ** The round-robin scheduler *)

Section Scheduler.
Context {B : Type} `{ModelClient B}.
Variable team : RoundRobinGroupChat.
Variable task : string.

Lemma take_turn_message (agent : AssistantAgent) (t : list Message) (s s' : B) (m : Message) :
  take_turn agent task t s = (Return m, s') ->
  sender m = name agent /\ turn_index m = length t /\
  exists reply, fst (create agent task t s) = Some reply /\ content m = reply.
Proof.
  unfold take_turn. destruct (create agent task t s) as [[reply|] s1]; [|done].
  intros [= <- <-]. simpl. eauto.
Qed.

Lemma in_round_robin_order_snoc (agent : AssistantAgent) (t : list Message) (m : Message) :
  in_round_robin_order team t ->
  participants team !! (length t mod length (participants team)) = Some agent ->
  sender m = name agent -> turn_index m = length t ->
  in_round_robin_order team (t ++ [m]).
Proof.
  intros Ht Hagent Hsender Hindex k m' Hk.
  apply lookup_app_Some in Hk as [Hk|[Hge Hk]]; [by apply Ht|].
  apply list_lookup_singleton_Some in Hk as [Hk0 ->].
  assert (k = length t) as -> by lia. eauto.
Qed.

Lemma run_turns_order (turns : nat) (t t' : list Message) (s s' : B) :
  in_round_robin_order team t ->
  run_turns turns team task t s = (Returned t', s') ->
  in_round_robin_order team t'.
Proof.
  revert t s. induction turns as [|turns IH]; intros t s Ht; simpl; [done|].
  destruct (participants team !! _) as [agent|] eqn:Hagent; [|done].
  destruct (take_turn agent task t s) as [[m|e] s1] eqn:Hturn; [|done].
  apply take_turn_message in Hturn as (Hsender & Hindex & _).
  pose proof (in_round_robin_order_snoc agent t m Ht Hagent Hsender Hindex) as Ht1.
  destruct (should_stop _ _); [by intros [= <- <-]|].
  by apply IH.
Qed.

(** A run that returns has stopped at the first transcript on which the
    termination condition holds. *)
Lemma run_turns_first_stop (turns : nat) (t t' : list Message) (s s' : B) :
  run_turns turns team task t s = (Returned t', s') ->
  t `prefix_of` t' /\ length t < length t' /\
  should_stop (termination_condition team) t' = true /\
  forall k, length t < k < length t' ->
    should_stop (termination_condition team) (take k t') = false.
Proof.
  revert t s. induction turns as [|turns IH]; intros t s; simpl; [done|].
  destruct (participants team !! _) as [agent|]; [|done].
  destruct (take_turn agent task t s) as [[m|e] s1]; [|done].
  destruct (should_stop _ (t ++ [m])) eqn:Hstop.
  - intros [= <- <-]. rewrite length_app. simpl.
    split; [by apply prefix_app_r|]. split; [lia|]. split; [done|]. lia.
  - intros Hrun. apply IH in Hrun as (Hpre & Hlen & Hstop' & Hfirst).
    rewrite length_app in Hlen, Hfirst. simpl in Hlen, Hfirst.
    split; [by etrans; [apply prefix_app_r|]|]. split; [lia|]. split; [done|].
    intros k Hk. destruct (decide (k = length t + 1)) as [->|Hne].
    + destruct Hpre as [rest ->].
      rewrite take_app_length'; [done|]. rewrite length_app. simpl. lia.
    + apply Hfirst. lia.
Qed.

End Scheduler.

Section QuietRun.
Context {B : Type} `{ModelClient B}.
Variable team : RoundRobinGroupChat.
Variable task : string.
Variables (marker : string) (cap : nat).
Hypothesis roster : participants team <> [].
Hypothesis policy :
  termination_condition team
    = OrTermination (TextMentionTermination marker) (MaxMessageTermination cap).
Hypothesis quiet : never_mentions marker.

(** Under "marker or cap" a run that is given enough turns to reach the
    cap is over: it has returned or raised. *)
Lemma run_turns_ends (turns : nat) (t : list Message) (s : B) :
  0 < turns -> cap <= length t + turns ->
  fst (run_turns turns team task t s) <> Running.
Proof.
  revert t s. induction turns as [|turns IH]; intros t s Hpos Hcap; [lia|]. simpl.
  destruct (participants team !! _) as [agent|]; [|done].
  destruct (take_turn agent task t s) as [[m|e] s1]; [|done].
  destruct (should_stop _ (t ++ [m])) eqn:Hstop; [done|].
  rewrite policy in Hstop. simpl in Hstop.
  apply orb_false_iff in Hstop as [_ Hlen%Nat.leb_gt].
  rewrite length_app in Hlen. simpl in Hlen.
  apply IH; [lia|]. rewrite length_app. simpl. lia.
Qed.

Lemma next_agent (t : list Message) :
  is_Some (participants team !! (length t mod length (participants team))).
Proof.
  apply lookup_lt_is_Some, Nat.mod_upper_bound.
  destruct (participants team); [done|simpl; lia].
Qed.

(** With a backend that never fails and never says the marker, a run
    under "marker or cap" goes on until the transcript holds exactly
    [cap] messages. *)
Lemma run_turns_quiet (d turns : nat) (t : list Message) (s : B) :
  mentions marker t = false ->
  length t + d = cap -> 0 < d -> d <= turns ->
  exists t' s',
    run_turns turns team task t s = (Returned t', s') /\
    length t' = cap /\ mentions marker t' = false.
Proof.
  revert turns t s. induction d as [|d IH]; intros turns t s Hno Hlen Hpos Hturns; [lia|].
  destruct turns as [|turns]; [lia|]. simpl.
  destruct (next_agent t) as [agent ->].
  unfold take_turn. destruct (quiet agent task t s) as (reply & Hreply & Hclean).
  destruct (create agent task t s) as [[r|] s1]; simpl in Hreply; [|done].
  injection Hreply as ->.
  set (m := {| sender := name agent; content := reply; turn_index := length t |}).
  assert (Hno1 : mentions marker (t ++ [m]) = false).
  { rewrite mentions_app, Hno. simpl. by rewrite Hclean. }
  assert (Hstop : should_stop (termination_condition team) (t ++ [m])
                  = (cap <=? length (t ++ [m]))).
  { rewrite policy. simpl. by rewrite Hno1. }
  rewrite Hstop.
  assert (Hlen1 : length (t ++ [m]) = length t + 1) by (rewrite length_app; done).
  destruct (cap <=? length (t ++ [m])) eqn:Hcap.
  - apply Nat.leb_le in Hcap. exists (t ++ [m]), s1. split; [done|]. split; [lia|done].
  - apply Nat.leb_gt in Hcap. apply IH; [done|lia|lia|lia].
Qed.

End QuietRun.

Lemma should_stop_termination (t : list Message) :
  should_stop termination t = mentions "Decision Made" t || (15 <=? length t).
Proof. reflexivity. Qed.

(** C1.  The deployed termination condition is the OR of the mention of
    "Decision Made" and the cap of 15 messages; a run of the four-agent
    team that returns has stopped on the first transcript for which one
    of the two holds, so it never holds more than 15 messages; and when
    the backend always answers and no answer contains "Decision Made",
    the run returns with exactly 15 messages.  Given 15 turns or more,
    a run is always over: it has returned or raised. *)
Theorem termination_marker_or_cap {B} `{ModelClient B} :
  (forall t, should_stop termination t
             = mentions "Decision Made" t || (15 <=? length t)) /\
  (forall turns task s t s',
     run_stream turns investment_team task s = (Returned t, s') ->
     should_stop termination t = true /\
     length t <= 15 /\
     forall k, 0 < k < length t -> should_stop termination (take k t) = false) /\
  (forall turns task s,
     15 <= turns -> fst (run_stream turns investment_team task s) <> Running) /\
  (never_mentions "Decision Made" ->
   forall turns task s, 15 <= turns ->
     exists t s',
       run_stream turns investment_team task s = (Returned t, s') /\
       length t = 15 /\ mentions "Decision Made" t = false).
Proof.
  split; [apply should_stop_termination|]. split.
  - intros turns task s t s' Hrun.
    apply run_turns_first_stop in Hrun as (_ & Hlen & Hstop & Hfirst).
    change (termination_condition investment_team) with termination in Hstop, Hfirst.
    change (length (@nil Message)) with 0 in Hlen, Hfirst.
    split; [done|]. split; [|done].
    destruct (decide (length t <= 15)) as [|Hlong]; [done|].
    specialize (Hfirst 15 ltac:(lia)).
    rewrite should_stop_termination, length_take in Hfirst.
    apply orb_false_iff in Hfirst as [_ Hcap%Nat.leb_gt]. lia.
  - split.
    { intros turns task s Hturns.
      apply (run_turns_ends investment_team task "Decision Made" 15); [done|lia|simpl; lia]. }
    intros Hquiet turns task s Hturns.
    apply (run_turns_quiet investment_team task "Decision Made" 15) with (d := 15);
      [done|done|done|done|done|lia|done].
Qed.

Lemma termination_marker_or_cap_witness :
  @never_mentions unit quiet_model "Decision Made" /\
  exists t,
    @run_stream unit quiet_model 15 investment_team (analysis_task "ICICIBANK.NS") tt
      = (Returned t, tt) /\
    length t = 15.
Proof.
  assert (Hquiet : @never_mentions unit quiet_model "Decision Made").
  { intros agent task transcript s. exists "HOLD". split; reflexivity. }
  split; [exact Hquiet|].
  destruct (@termination_marker_or_cap unit quiet_model) as (_ & _ & _ & Hrun).
  destruct (Hrun Hquiet 15 (analysis_task "ICICIBANK.NS") tt (le_n 15))
    as (t & [] & Heq & Hlen & _).
  exists t. split; [exact Heq|exact Hlen].
Defined.

(** C2.  In every run that returns, whatever the roster, the
    termination tree and the number of turns, the message at position
    [k] was sent by the agent at position [k mod N] and carries turn
    index [k]; for the deployed roster this is the cycle stock_trends_agent,
    news_agent, sentiment_agent, decision_agent, and every round of four
    consecutive turns runs through the roster in order, without skipping
    or reordering an agent. *)
Theorem round_robin_turn_order {B} `{ModelClient B} :
  (forall team turns task s t s',
     run_stream turns team task s = (Returned t, s') ->
     in_round_robin_order team t) /\
  (forall turns task s t s',
     run_stream turns investment_team task s = (Returned t, s') ->
     let roster := ["stock_trends_agent"; "news_agent"; "sentiment_agent"; "decision_agent"] in
     (forall k m, t !! k = Some m ->
        roster !! (k mod 4) = Some (sender m) /\ turn_index m = k) /\
     (forall round, map sender (take 4 (drop (4 * round) t)) `prefix_of` roster)).
Proof.
  assert (Hall : forall team turns task s t s',
             run_stream turns team task s = (Returned t, s') ->
             in_round_robin_order team t).
  { intros team turns task s t s' Hrun.
    apply (run_turns_order team task turns [] t s s'); [|done].
    intros k m Hk. by rewrite lookup_nil in Hk. }
  split; [exact Hall|].
  intros turns task s t s' Hrun roster.
  apply Hall in Hrun.
  assert (Hsender : forall k m, t !! k = Some m ->
            roster !! (k mod 4) = Some (sender m) /\ turn_index m = k).
  { intros k m Hk. destruct (Hrun k m Hk) as (agent & Hagent & -> & Hindex).
    split; [|done]. change (length (participants investment_team)) with 4 in Hagent.
    change roster with (map name (participants investment_team)).
    by rewrite list_lookup_fmap, Hagent. }
  split; [exact Hsender|].
  intros round.
  set (chunk := take 4 (drop (4 * round) t)).
  assert (Hchunk : map sender chunk = take (length chunk) roster).
  { apply list_eq. intros i. rewrite list_lookup_fmap.
    destruct (decide (i < length chunk)) as [Hi|Hi].
    - rewrite lookup_take_lt by done.
      destruct (lookup_lt_is_Some_2 chunk i Hi) as [m Hm]. rewrite Hm. simpl.
      assert (Hi4 : i < 4).
      { unfold chunk in Hi. rewrite length_take in Hi. lia. }
      unfold chunk in Hm. rewrite lookup_take_lt, lookup_drop in Hm by done.
      destruct (Hsender _ _ Hm) as [Hroster _].
      replace ((4 * round + i) mod 4) with i in Hroster; [done|].
      rewrite Nat.add_comm, Nat.mul_comm, Nat.Div0.mod_add.
      symmetry. by apply Nat.mod_small.
    - rewrite lookup_take_ge by lia.
      rewrite lookup_ge_None_2 by lia. done. }
  rewrite Hchunk. apply prefix_take.
Qed.

Lemma round_robin_turn_order_witness :
  exists t,
    @run_stream unit deciding_model 15 investment_team (analysis_task "ICICIBANK.NS") tt
      = (Returned t, tt) /\
    map sender t = ["stock_trends_agent"; "news_agent"; "sentiment_agent"; "decision_agent"] /\
    in_round_robin_order investment_team t.
Proof.
  eexists. split; [vm_compute; reflexivity|]. split; [reflexivity|].
  destruct (@round_robin_turn_order unit deciding_model) as [Hall _].
  apply (Hall investment_team 15 (analysis_task "ICICIBANK.NS") tt _ tt).
  vm_compute. reflexivity.
Defined.

(** ** The polling loop *)

Section Loop.
Context {B : Type} `{GroupChat B}.

Lemma run_realtime_analysis_never_returns (cycles : nat) (stock_name : string)
    (interval : Z) (w : World B) :
  fst (run_realtime_analysis cycles stock_name interval w) <> Returned tt.
Proof.
  revert w. induction cycles as [|cycles IH]; intros w; simpl; [done|].
  destruct (team_run_stream _ _) as [[transcript|e|] s']; simpl; [apply IH|done|done].
Qed.

Lemma run_realtime_analysis_step (cycles : nat) (stock_name : string)
    (interval : Z) (w w' : World B) :
  cycle stock_name interval w = Some w' ->
  run_realtime_analysis (S cycles) stock_name interval w
    = run_realtime_analysis cycles stock_name interval w'.
Proof.
  unfold cycle. simpl.
  destruct (team_run_stream _ _) as [[transcript|e|] s']; [|done|done].
  intros [= <-]. unfold emit. simpl. by rewrite <- !app_assoc.
Qed.

Lemma run_realtime_analysis_cycles_done (k cycles : nat) (stock_name : string)
    (interval : Z) (w w' : World B) :
  cycles_done k stock_name interval w = Some w' ->
  run_realtime_analysis (k + cycles) stock_name interval w
    = run_realtime_analysis cycles stock_name interval w'.
Proof.
  revert w. induction k as [|k IH]; intros w Hdone; simpl in Hdone.
  - by injection Hdone as ->.
  - destruct (cycle stock_name interval w) as [w1|] eqn:Hcycle; [|done].
    change (S k + cycles) with (S (k + cycles)).
    rewrite (run_realtime_analysis_step _ _ _ _ _ Hcycle). by apply IH.
Qed.

Lemma run_realtime_analysis_raises (cycles : nat) (stock_name : string)
    (interval : Z) (w : World B) (e : Exception) (s' : B) :
  team_run_stream (analysis_task stock_name) (backend w) = (Raised e, s') ->
  run_realtime_analysis (S cycles) stock_name interval w
    = (Raised e, {| backend := s'; output := output w ++ [Banner] |}).
Proof. simpl. by intros ->. Qed.

End Loop.

(** The deployed team always comes back to the loop when the chat model
    answers every call without the marker and a run is given 15 turns. *)
Lemma deployed_team_comes_back {B} `{ModelClient B} (turns : nat) (task : string) (s : B) :
  never_mentions "Decision Made" -> 15 <= turns ->
  exists t s', @team_run_stream B (deployed_team turns) task s = (Returned t, s').
Proof.
  intros Hquiet Hturns. simpl. unfold run_stream.
  destruct (run_turns_quiet investment_team task "Decision Made" 15
              ltac:(done) eq_refl Hquiet 15 turns [] s)
    as (t & s' & Hrun & _); [done|done|lia|done|].
  by exists t, s'.
Qed.

(** C5.  A failed run is not survived: when, after [k] complete
    iterations, the run raises, the exception leaves
    [run_realtime_analysis]; the loop stops there, having printed the
    banner of that iteration, without sleeping and without starting
    another run. *)
Theorem failed_run_ends_the_loop {B} `{GroupChat B} (k cycles : nat) (stock_name : string)
    (interval : Z) (w w' : World B) (e : Exception) (s' : B) :
  cycles_done k stock_name interval w = Some w' ->
  team_run_stream (analysis_task stock_name) (backend w') = (Raised e, s') ->
  k < cycles ->
  run_realtime_analysis cycles stock_name interval w
    = (Raised e, {| backend := s'; output := output w' ++ [Banner] |}).
Proof.
  intros Hdone Hraise Hlt.
  replace cycles with (k + S (cycles - k - 1)) by lia.
  rewrite (run_realtime_analysis_cycles_done _ _ _ _ _ _ Hdone).
  by apply run_realtime_analysis_raises.
Qed.

Lemma failed_run_ends_the_loop_witness :
  @cycles_done nat outage_team 0 "ICICIBANK.NS" 60 fresh_world = Some fresh_world /\
  @team_run_stream nat outage_team (analysis_task "ICICIBANK.NS") 0 = (Raised RunFailed, 1) /\
  @run_realtime_analysis nat outage_team 3 "ICICIBANK.NS" 60 fresh_world
    = (Raised RunFailed, {| backend := 1; output := [Banner] |}).
Proof.
  split; [reflexivity|]. split; [reflexivity|].
  apply (@failed_run_ends_the_loop nat outage_team 0 3 "ICICIBANK.NS" 60
           fresh_world fresh_world RunFailed 1);
    [reflexivity|reflexivity|lia].
Defined.

(** C5 as the specification words it does not hold.  The loop has no
    handler: with a team whose first run fails and whose second run
    would come back, three iterations of [main] end in the
    exception of the first run, with nothing but the first banner in the
    output: no sleep and no second run. *)
Lemma failed_run_crashes_main :
  @main nat outage_team 3 fresh_world
    = (Raised RunFailed, {| backend := 1; output := [Banner] |}) /\
  @team_run_stream nat outage_team (analysis_task "ICICIBANK.NS") 1
    = (Returned (one_line 1), 2) /\
  ~ (exists w', @main nat outage_team 3 fresh_world = (Running, w') /\
                Sleep 60 ∈ output w').
Proof.
  split; [reflexivity|]. split; [reflexivity|].
  intros (w' & Hmain & _). discriminate Hmain.
Qed.

Section LoopFollowsRuns.
Context {B : Type} `{GroupChat B}.

Lemma state_before_run_shift (task : string) (s0 : B) (i : nat) :
  state_before_run task s0 (S i)
  = state_before_run task (snd (team_run_stream task s0)) i.
Proof.
  unfold state_before_run. induction i as [|i IH]; [done|].
  simpl in *. by rewrite IH.
Qed.

Lemma nth_run_shift (task : string) (s0 : B) (i : nat) :
  nth_run task s0 (S i) = nth_run task (snd (team_run_stream task s0)) i.
Proof. unfold nth_run. by rewrite state_before_run_shift. Qed.

Lemma nth_transcript_shift (task : string) (s0 : B) (i : nat) :
  nth_transcript task s0 (S i) = nth_transcript task (snd (team_run_stream task s0)) i.
Proof. unfold nth_transcript. by rewrite nth_run_shift. Qed.

(** The loop followed for [cycles] iterations is the team's runs in a
    row: [k] of them came back, each rendered and slept after; either
    [k] is [cycles] and the loop goes on, or run [k] raised or has not
    come back, and the loop is where that run left it. *)
Lemma run_realtime_analysis_follows_runs (cycles : nat) (stock_name : string)
    (interval : Z) (w : World B) :
  let task := analysis_task stock_name in
  let s0 := backend w in
  let r := run_realtime_analysis cycles stock_name interval w in
  exists k,
    k <= cycles /\
    (forall i, i < k -> exists t, fst (nth_run task s0 i) = Returned t) /\
    output (snd r)
      = output w
        ++ concat (map (fun i => cycle_events interval (nth_transcript task s0 i)) (seq 0 k))
        ++ (if decide (k = cycles) then [] else [Banner]) /\
    backend (snd r)
      = (if decide (k = cycles) then state_before_run task s0 k
         else snd (nth_run task s0 k)) /\
    ((k = cycles /\ fst r = Running) \/
     (k < cycles /\
      ((fst (nth_run task s0 k) = Running /\ fst r = Running) \/
       exists e, fst (nth_run task s0 k) = Raised e /\ fst r = Raised e))).
Proof.
  cbv zeta. set (task := analysis_task stock_name).
  revert w. induction cycles as [|cycles IH]; intros w; simpl.
  - exists 0. simpl. rewrite app_nil_r. repeat split; try done; [lia|by left].
  - fold task. destruct (team_run_stream task (backend w)) as [[t|e|] s'] eqn:Hrun; simpl.
    + match goal with
      | |- context [run_realtime_analysis cycles stock_name interval ?w1] =>
          destruct (IH w1) as (k & Hle & Hret & Hout & Hback & Hcase)
      end.
      simpl in Hret, Hout, Hback, Hcase.
      assert (Hshift : forall i, nth_run task (backend w) (S i) = nth_run task s' i).
      { intros i. by rewrite nth_run_shift, Hrun. }
      assert (Hshift' : forall i,
                nth_transcript task (backend w) (S i) = nth_transcript task s' i).
      { intros i. by rewrite nth_transcript_shift, Hrun. }
      assert (Hstate : forall i,
                state_before_run task (backend w) (S i) = state_before_run task s' i).
      { intros i. by rewrite state_before_run_shift, Hrun. }
      assert (Hfirst : nth_transcript task (backend w) 0 = t).
      { unfold nth_transcript, nth_run. simpl. by rewrite Hrun. }
      exists (S k). split; [lia|]. split; [|split; [|split]].
      * intros [|i] Hi.
        -- exists t. unfold nth_run. simpl. by rewrite Hrun.
        -- rewrite Hshift. apply Hret. lia.
      * rewrite Hout. simpl seq. cbn [map concat].
        rewrite <- seq_shift, map_map, Hfirst, <- !app_assoc. simpl.
        assert (Hmap :
          map (fun i => cycle_events interval (nth_transcript task (backend w) (S i)))
              (seq 0 k)
          = map (fun i => cycle_events interval (nth_transcript task s' i)) (seq 0 k)).
        { apply map_ext. intros i. by rewrite Hshift'. }
        rewrite Hmap.
        destruct (decide (k = cycles)), (decide (S k = S cycles)); try lia; done.
      * rewrite Hback.
        destruct (decide (k = cycles)), (decide (S k = S cycles)); try lia.
        -- by rewrite Hstate.
        -- by rewrite Hshift.
      * rewrite Hshift.
        destruct Hcase as [[-> Hrun']|[Hlt Hrun']]; [left|right]; (split; [done || lia|done]).
    + exists 0. simpl. split; [lia|]. split; [intros i Hi; lia|].
      split; [done|]. split; [unfold nth_run; simpl; by rewrite Hrun|].
      right. split; [lia|]. right. exists e. unfold nth_run. simpl. by rewrite Hrun.
    + exists 0. simpl. split; [lia|]. split; [intros i Hi; lia|].
      split; [done|]. split; [unfold nth_run; simpl; by rewrite Hrun|].
      right. split; [lia|]. left. unfold nth_run. simpl. by rewrite Hrun.
Qed.

End LoopFollowsRuns.

(** C9.  [run_realtime_analysis] never returns, however many iterations
    are followed, and the only exception that ends it is one that a run
    of the team raised, all runs before it having come back.  As long as
    the runs come back, every iteration is exactly one run of the team
    on the task, started in the state the run before left: after
    [cycles] iterations the loop is still going, the state is that of
    [cycles] runs in a row, and the output is, for each run in turn, the
    banner, the conversation that run returned, the waiting notice and
    the sleep of the interval.  [main] runs it with the interval 60, the
    default, which is positive. *)
Theorem polling_loop_runs_until_a_run_raises {B} `{GroupChat B} :
  (forall cycles stock_name interval w,
     fst (run_realtime_analysis cycles stock_name interval w) <> Returned tt) /\
  (forall cycles stock_name interval w e,
     fst (run_realtime_analysis cycles stock_name interval w) = Raised e ->
     exists k,
       k < cycles /\
       (forall i, i < k ->
          exists t, fst (nth_run (analysis_task stock_name) (backend w) i) = Returned t) /\
       fst (nth_run (analysis_task stock_name) (backend w) k) = Raised e) /\
  (forall cycles stock_name interval w,
     (forall i, i < cycles ->
        exists t, fst (nth_run (analysis_task stock_name) (backend w) i) = Returned t) ->
     run_realtime_analysis cycles stock_name interval w
     = (Running,
        {| backend := state_before_run (analysis_task stock_name) (backend w) cycles;
           output :=
             output w ++
             concat (map (fun i =>
                            [Banner;
                             Console (nth_transcript (analysis_task stock_name) (backend w) i);
                             Waiting interval;
                             Sleep interval])
                         (seq 0 cycles)) |})) /\
  (forall cycles w,
     (forall i, i < cycles ->
        exists t, fst (nth_run (analysis_task "ICICIBANK.NS") (backend w) i) = Returned t) ->
     main cycles w
     = (Running,
        {| backend := state_before_run (analysis_task "ICICIBANK.NS") (backend w) cycles;
           output :=
             output w ++
             concat (map (fun i =>
                            [Banner;
                             Console (nth_transcript (analysis_task "ICICIBANK.NS")
                                        (backend w) i);
                             Waiting 60;
                             Sleep 60])
                         (seq 0 cycles)) |})) /\
  (default_interval = 60 /\ 0 < default_interval)%Z.
Proof.
  assert (Hloop : forall cycles stock_name interval (w : World B),
     (forall i, i < cycles ->
        exists t, fst (nth_run (analysis_task stock_name) (backend w) i) = Returned t) ->
     run_realtime_analysis cycles stock_name interval w
     = (Running,
        {| backend := state_before_run (analysis_task stock_name) (backend w) cycles;
           output :=
             output w ++
             concat (map (fun i =>
                            cycle_events interval
                              (nth_transcript (analysis_task stock_name) (backend w) i))
                         (seq 0 cycles)) |})).
  { intros cycles stock_name interval w Hall.
    destruct (run_realtime_analysis_follows_runs cycles stock_name interval w)
      as (k & Hle & Hret & Hout & Hback & Hcase).
    cbv zeta in Hout, Hback, Hcase.
    assert (Hk : k = cycles).
    { destruct Hcase as [[-> _]|[Hlt Hstuck]]; [done|].
      destruct (Hall k Hlt) as [t Ht].
      destruct Hstuck as [[Hrunning _]|(e & Hraised & _)]; congruence. }
    subst k. destruct (decide (cycles = cycles)); [|done]. rewrite app_nil_r in Hout.
    destruct Hcase as [[_ Hrunning]|[Hlt _]]; [|lia].
    destruct (run_realtime_analysis cycles stock_name interval w) as [o [b out]].
    simpl in *. by subst. }
  split; [apply run_realtime_analysis_never_returns|].
  split; [|split; [exact Hloop|split; [|split; reflexivity]]].
  - intros cycles stock_name interval w e Hraised.
    destruct (run_realtime_analysis_follows_runs cycles stock_name interval w)
      as (k & Hle & Hret & _ & _ & Hcase).
    cbv zeta in Hcase.
    destruct Hcase as [[_ Hrunning]|[Hlt [[_ Hrunning]|(e' & Hk & Hraised')]]];
      [congruence|congruence|].
    exists k. split; [done|]. split; [done|]. congruence.
  - intros cycles w Hall. exact (Hloop cycles "ICICIBANK.NS" 60%Z w Hall).
Qed.

Lemma polling_loop_runs_until_a_run_raises_witness :
  (forall i, i < 2 ->
     exists t, fst (@nth_run nat steady_team (analysis_task "ICICIBANK.NS")
                      (backend fresh_world) i) = Returned t) /\
  @main nat steady_team 2 fresh_world
  = (Running,
     {| backend := 2;
        output := [Banner; Console (one_line 0); Waiting 60; Sleep 60;
                   Banner; Console (one_line 1); Waiting 60; Sleep 60] |}).
Proof.
  assert (Hall : forall i, i < 2 ->
            exists t, fst (@nth_run nat steady_team (analysis_task "ICICIBANK.NS")
                             (backend fresh_world) i) = Returned t).
  { intros i _. eexists. reflexivity. }
  split; [exact Hall|].
  destruct (@polling_loop_runs_until_a_run_raises nat steady_team)
    as (_ & _ & _ & Hmain & _).
  exact (Hmain 2 fresh_world Hall).
Defined.

(** C9 as the specification words it does not hold.  The loop does end
    on its own: with a team whose third run fails, ten iterations of
    [main] are not ten runs and ten sleeps.  After two complete
    iterations the third run raises, and the loop has ended in that
    exception with the third banner as its last output; nothing outside
    stopped it. *)
Lemma polling_loop_ends_on_its_own :
  @main nat third_run_fails_team 10 fresh_world
  = (Raised RunFailed,
     {| backend := 3;
        output := [Banner; Console (one_line 0); Waiting 60; Sleep 60;
                   Banner; Console (one_line 1); Waiting 60; Sleep 60;
                   Banner] |}) /\
  ~ (exists w', @main nat third_run_fails_team 10 fresh_world = (Running, w')).
Proof.
  split; [reflexivity|]. intros (w' & Hmain). discriminate Hmain.
Qed.

(** * Further properties of the code *)

(** ** The Bing-grounded tools *)

Ltac tool_cases :=
  unfold stock_price_trends_tool, news_analysis_tool,
    trends_instructions, trends_prompt, news_instructions, news_prompt in *;
  run_remote;
  try match goal with
  | |- context [process_run ?i ?m] => destruct (process_run i m) eqn:?; run_remote
  end.



(** X2.  When the run fails at the service, the tool raises the
    service's exception unchanged and cleans nothing up: the assistant
    it created is still there with its instructions, and so is the
    thread with the user message. *)
Theorem bing_tools_propagate_service_failure `{AgentsService}
    (stock_name : string) (p : Project) (e : Exception) :
  (process_run (trends_instructions stock_name)
     [text_message "user" (trends_prompt stock_name)] = Raise e ->
   let r := stock_price_trends_tool stock_name p in
   fst r = Raise e /\
   agents (snd r) !! next_id p = Some (trends_instructions stock_name) /\
   threads (snd r) !! S (next_id p)
     = Some [text_message "user" (trends_prompt stock_name)]) /\
  (process_run (news_instructions stock_name)
     [text_message "user" (news_prompt stock_name)] = Raise e ->
   let r := news_analysis_tool stock_name p in
   fst r = Raise e /\
   agents (snd r) !! next_id p = Some (news_instructions stock_name) /\
   threads (snd r) !! S (next_id p)
     = Some [text_message "user" (news_prompt stock_name)]).
Proof.
  split; intros Hrun; tool_cases; simplify_eq; done.
Qed.

Lemma bing_tools_propagate_service_failure_witness :
  @process_run failing_service (news_instructions "ICICIBANK.NS")
    [text_message "user" (news_prompt "ICICIBANK.NS")] = Raise HttpResponseError /\
  fst (@news_analysis_tool failing_service "ICICIBANK.NS" busy_project)
    = Raise HttpResponseError /\
  agents (snd (@news_analysis_tool failing_service "ICICIBANK.NS" busy_project)) !! 9
    = Some (news_instructions "ICICIBANK.NS").
Proof.
  split; [reflexivity|].
  destruct (@bing_tools_propagate_service_failure failing_service
              "ICICIBANK.NS" busy_project HttpResponseError) as [_ Hnews].
  destruct (Hnews eq_refl) as (Hraise & Hagent & _).
  split; [exact Hraise|exact Hagent].
Defined.

(** X3.  Whenever a Bing-grounded tool returns a value, the assistant
    it created has been deleted, the thread it created is still at the
    service, and the value is the first text value of the messages that
    thread then holds. *)
Theorem bing_tools_state_on_return `{AgentsService}
    (stock_name : string) (p : Project) (v : Json) :
  (fst (stock_price_trends_tool stock_name p) = Return v ->
   let after := snd (stock_price_trends_tool stock_name p) in
   agents after = delete (next_id p) (agents p) /\
   exists msgs,
     threads after !! S (next_id p) = Some msgs /\
     first_text_value (JDict [("data", JList msgs)]) = Return v) /\
  (fst (news_analysis_tool stock_name p) = Return v ->
   let after := snd (news_analysis_tool stock_name p) in
   agents after = delete (next_id p) (agents p) /\
   exists msgs,
     threads after !! S (next_id p) = Some msgs /\
     first_text_value (JDict [("data", JList msgs)]) = Return v).
Proof.
  split; tool_cases; intros Hret; try done;
    (split; [apply delete_insert_eq|]); eexists; (split; [reflexivity|done]).
Qed.

Lemma bing_tools_state_on_return_witness :
  fst (@news_analysis_tool (answering_service "calm") "ICICIBANK.NS" busy_project)
    = Return (JStr "calm") /\
  agents (snd (@news_analysis_tool (answering_service "calm") "ICICIBANK.NS" busy_project))
    = delete 9 (agents busy_project) /\
  is_Some (threads (snd (@news_analysis_tool (answering_service "calm")
                           "ICICIBANK.NS" busy_project)) !! 10).
Proof.
  split; [reflexivity|].
  destruct (@bing_tools_state_on_return (answering_service "calm")
              "ICICIBANK.NS" busy_project (JStr "calm")) as [_ Hnews].
  destruct (Hnews eq_refl) as (Hagents & msgs & Hthread & _).
  split; [exact Hagents|]. exists msgs. exact Hthread.
Defined.

(** X4.  A Bing-grounded tool changes and deletes nothing that it has
    not created itself: whichever way the run ends, every other
    assistant and every other thread of the project is as it was before
    the call. *)
Theorem bing_tools_frame `{AgentsService} (stock_name : string) (p : Project) :
  let after_trends := snd (stock_price_trends_tool stock_name p) in
  let after_news := snd (news_analysis_tool stock_name p) in
  (forall id, id <> next_id p ->
     agents after_trends !! id = agents p !! id /\
     agents after_news !! id = agents p !! id) /\
  (forall id, id <> S (next_id p) ->
     threads after_trends !! id = threads p !! id /\
     threads after_news !! id = threads p !! id).
Proof.
  intros after_trends after_news. subst after_trends after_news. split.
  - intros id Hid. split; tool_cases;
      rewrite ?lookup_delete_ne, ?lookup_insert_ne by done; done.
  - intros id Hid. split; tool_cases;
      rewrite ?lookup_insert_ne by done; done.
Qed.

Lemma bing_tools_frame_witness :
  7 <> next_id busy_project /\ 8 <> S (next_id busy_project) /\
  agents (snd (@stock_price_trends_tool failing_service "ICICIBANK.NS" busy_project)) !! 7
    = agents busy_project !! 7 /\
  threads (snd (@news_analysis_tool failing_service "ICICIBANK.NS" busy_project)) !! 8
    = threads busy_project !! 8.
Proof.
  assert (Hagent : 7 <> next_id busy_project) by discriminate.
  assert (Hthread : 8 <> S (next_id busy_project)) by discriminate.
  split; [exact Hagent|]. split; [exact Hthread|].
  destruct (@bing_tools_frame failing_service "ICICIBANK.NS" busy_project)
    as (Hagents & Hthreads).
  split; [exact (proj1 (Hagents 7 Hagent))|exact (proj2 (Hthreads 8 Hthread))].
Defined.

(** X8.  Reading [messages["data"][0]["content"][0]["text"]["value"]]
    returns a value exactly when the listing is a dictionary whose
    "data" is a list that starts with a dictionary, whose "content" is a
    list that starts with a dictionary, whose "text" is a dictionary
    with a "value", and then it returns that value; older messages and
    further content parts are never looked at. *)
Theorem first_text_value_shape (messages v : Json) :
  first_text_value messages = Return v <->
  exists fields mfields older parts pfields tfields,
    messages = JDict fields /\
    assoc "data" fields = Some (JList (JDict mfields :: older)) /\
    assoc "content" mfields = Some (JList (JDict pfields :: parts)) /\
    assoc "text" pfields = Some (JDict tfields) /\
    assoc "value" tfields = Some v.
Proof.
  split.
  - unfold first_text_value, and_then, getitem, getindex.
    intros Hret.
    repeat (case_match; simplify_eq/=; try done).
    repeat match goal with
    | Hl : ?l !! 0 = Some _ |- _ => destruct l; simplify_eq/=
    end.
    by repeat eexists.
  - intros (fields & mfields & older & parts & pfields & tfields
            & -> & Hdata & Hcontent & Htext & Hvalue).
    unfold first_text_value, and_then. simpl.
    rewrite Hdata. simpl. rewrite Hcontent. simpl. rewrite Htext. simpl.
    by rewrite Hvalue.
Qed.

(** ** The real-time price tool *)

Lemma prefix_append (s t : string) : String.prefix s (s +:+ t) = true.
Proof.
  induction s as [|c s IH]; simpl; [by destruct t|].
  destruct (Ascii.ascii_dec c c) as [_|Hne]; [done|by destruct Hne].
Qed.

Lemma contains_prefix (needle hay : string) :
  String.prefix needle hay = true -> contains needle hay = true.
Proof. destruct hay; simpl; intros ->; done. Qed.

Lemma contains_append_r (needle before hay : string) :
  contains needle hay = true -> contains needle (before +:+ hay) = true.
Proof.
  intros Hhay. induction before as [|c before IH]; simpl; [done|].
  rewrite IH. apply orb_true_r.
Qed.

(** X9.  Whatever the feed answers, [realtime_stock_price_tool]
    returns a text in which the symbol it was asked about occurs; when
    the history has a last bar, the bar's timestamp as formatted and its
    close as rendered with [.2f] occur in it too. *)
Theorem realtime_stock_price_tool_mentions_symbol `{YFinance} (stock_name : string) :
  exists text,
    realtime_stock_price_tool stock_name = Return text /\
    contains stock_name text = true /\
    forall index close,
      last (history stock_name "1d" "1m") = Some (index, close) ->
      contains (strftime index "%Y-%m-%d %H:%M:%S") text = true /\
      contains (format_2f close) text = true.
Proof.
  unfold realtime_stock_price_tool.
  destruct (history stock_name "1d" "1m") as [|row rest] eqn:Hdata.
  - eexists. split; [reflexivity|]. split; [|done].
    apply contains_append_r, contains_prefix, prefix_append.
  - simpl empty. cbv iota.
    destruct (last (row :: rest)) as [[index close]|] eqn:Hlast;
      [|by apply last_None in Hlast].
    eexists. split; [reflexivity|]. split.
    + do 3 apply contains_append_r. apply contains_prefix, prefix_append.
    + intros index' close' [= <- <-]. split.
      * apply contains_append_r, contains_prefix, prefix_append.
      * do 5 apply contains_append_r. apply contains_prefix, prefix_append.
Qed.

Lemma realtime_stock_price_tool_mentions_symbol_witness :
  last (@history sample_feed "ICICIBANK.NS" "1d" "1m")
    = Some ("2025-01-02 15:29:00", 143750%Z) /\
  exists text,
    @realtime_stock_price_tool sample_feed "ICICIBANK.NS" = Return text /\
    contains "ICICIBANK.NS" text = true /\
    contains "2025-01-02 15:29:00" text = true /\
    contains "1437.50" text = true.
Proof.
  split; [reflexivity|].
  destruct (@realtime_stock_price_tool_mentions_symbol sample_feed "ICICIBANK.NS")
    as (text & Hret & Hsymbol & Hbar).
  destruct (Hbar "2025-01-02 15:29:00" 143750%Z eq_refl) as [Htime Hprice].
  exists text. split; [exact Hret|]. split; [exact Hsymbol|].
  split; [exact Htime|exact Hprice].
Defined.

(** ** The polling loop, in every execution *)

Section LoopExecutions.
Context {B : Type} `{GroupChat B}.


(** X11.  Once the loop has ended in an exception, following it for
    more iterations changes nothing: the exception, the state of the
    backend and the output stay what they were. *)
Theorem polling_loop_crash_is_final (cycles more : nat) (stock_name : string)
    (interval : Z) (w w' : World B) (e : Exception) :
  run_realtime_analysis cycles stock_name interval w = (Raised e, w') ->
  run_realtime_analysis (cycles + more) stock_name interval w = (Raised e, w').
Proof.
  revert w. induction cycles as [|cycles IH]; intros w; simpl; [done|].
  destruct (team_run_stream _ _) as [[t|e'|] s']; [apply IH|done|done].
Qed.

(** X12.  The loop does nothing to the state of the team and of the
    services but run the team: after [cycles] iterations that state is
    the one reached by some number of consecutive runs, at most
    [cycles], each started in the state the run before left, with
    nothing reset in between; when every run comes back, that number is
    [cycles]. *)
Theorem polling_loop_threads_backend (cycles : nat) (stock_name : string)
    (interval : Z) (w : World B) :
  let next := fun s => snd (team_run_stream (analysis_task stock_name) s) in
  let r := run_realtime_analysis cycles stock_name interval w in
  (exists runs, runs <= cycles /\ backend (snd r) = Nat.iter runs next (backend w)) /\
  ((forall s, exists t s', team_run_stream (analysis_task stock_name) s = (Returned t, s')) ->
   backend (snd r) = Nat.iter cycles next (backend w)).
Proof.
  intros next. revert w. induction cycles as [|cycles IH]; intros w; simpl.
  - split; [by exists 0|done].
  - assert (Hswap : forall n s, Nat.iter n next (next s) = next (Nat.iter n next s)).
    { induction n as [|n IHn]; intros s; simpl; [done|by rewrite IHn]. }
    destruct (team_run_stream _ _) as [[t|e|] s'] eqn:Hrun; simpl.
    + match goal with
      | |- context [run_realtime_analysis cycles stock_name interval ?w1] =>
          destruct (IH w1) as [(runs & Hle & Hruns) Hall]
      end.
      simpl in Hruns, Hall.
      assert (Hs' : s' = next (backend w)) by (unfold next; by rewrite Hrun).
      split.
      * exists (S runs). split; [lia|]. rewrite Hruns, Hs'. simpl. apply Hswap.
      * intros Hback. rewrite (Hall Hback), Hs'. apply Hswap.
    + split.
      * exists 1. split; [lia|]. simpl. unfold next. by rewrite Hrun.
      * intros Hback. destruct (Hback (backend w)) as (t & s1 & Hret). congruence.
    + split.
      * exists 1. split; [lia|]. simpl. unfold next. by rewrite Hrun.
      * intros Hback. destruct (Hback (backend w)) as (t & s1 & Hret). congruence.
Qed.

End LoopExecutions.

Lemma polling_loop_crash_is_final_witness :
  @run_realtime_analysis nat outage_team 1 "ICICIBANK.NS" 60 fresh_world
    = (Raised RunFailed, {| backend := 1; output := [Banner] |}) /\
  @run_realtime_analysis nat outage_team (1 + 4) "ICICIBANK.NS" 60 fresh_world
    = (Raised RunFailed, {| backend := 1; output := [Banner] |}).
Proof.
  split; [reflexivity|].
  apply (@polling_loop_crash_is_final nat outage_team 1 4 "ICICIBANK.NS" 60 fresh_world).
  reflexivity.
Defined.

Lemma polling_loop_threads_backend_witness :
  (forall s, exists t s',
     @team_run_stream nat steady_team (analysis_task "ICICIBANK.NS") s = (Returned t, s')) /\
  backend (snd (@run_realtime_analysis nat steady_team 3 "ICICIBANK.NS" 60 fresh_world))
    = Nat.iter 3 (fun s => snd (@team_run_stream nat steady_team
                                  (analysis_task "ICICIBANK.NS") s)) 0.
Proof.
  assert (Hback : forall s, exists t s',
             @team_run_stream nat steady_team (analysis_task "ICICIBANK.NS") s
               = (Returned t, s')).
  { intros s. exists (one_line s), (S s). reflexivity. }
  split; [exact Hback|].
  destruct (@polling_loop_threads_backend nat steady_team 3 "ICICIBANK.NS" 60 fresh_world)
    as [_ Hall].
  exact (Hall Hback).
Defined.

(** X13.  The loop asks the team one thing only, the task built from
    the symbol: two teams that answer that task alike, in every state,
    make the loop behave alike, however they differ on other tasks. *)
Theorem polling_loop_asks_one_task {B : Type} (team1 team2 : GroupChat B)
    (cycles : nat) (stock_name : string) (interval : Z) (w : World B) :
  (forall s, @team_run_stream B team1 (analysis_task stock_name) s
           = @team_run_stream B team2 (analysis_task stock_name) s) ->
  @run_realtime_analysis B team1 cycles stock_name interval w
    = @run_realtime_analysis B team2 cycles stock_name interval w.
Proof.
  intros Hsame. revert w. induction cycles as [|cycles IH]; intros w; simpl; [done|].
  rewrite Hsame.
  destruct (@team_run_stream B team2 _ _) as [[t|e|] s']; [apply IH|done|done].
Qed.

Lemma polling_loop_asks_one_task_witness :
  (forall s, @team_run_stream nat steady_team (analysis_task "ICICIBANK.NS") s
           = @team_run_stream nat picky_team (analysis_task "ICICIBANK.NS") s) /\
  @team_run_stream nat steady_team "Anything else." 0
    <> @team_run_stream nat picky_team "Anything else." 0 /\
  @main nat steady_team 3 fresh_world = @main nat picky_team 3 fresh_world.
Proof.
  assert (Hsame : forall s,
             @team_run_stream nat steady_team (analysis_task "ICICIBANK.NS") s
             = @team_run_stream nat picky_team (analysis_task "ICICIBANK.NS") s).
  { intros s. reflexivity. }
  split; [exact Hsame|]. split; [discriminate|].
  exact (@polling_loop_asks_one_task nat steady_team picky_team 3 "ICICIBANK.NS" 60
           fresh_world Hsame).
Defined.

Lemma length_append (s t : string) :
  String.length (s +:+ t) = String.length s + String.length t.
Proof. induction s as [|c s IH]; simpl; [done|by rewrite IH]. Qed.

Lemma append_inv_tail (s1 s2 t : string) : s1 +:+ t = s2 +:+ t -> s1 = s2.
Proof.
  revert s2. induction s1 as [|c s1 IH]; intros [|c' s2] Heq.
  - done.
  - apply (f_equal String.length) in Heq.
    rewrite !length_append in Heq. cbn [String.length] in Heq. lia.
  - apply (f_equal String.length) in Heq.
    rewrite !length_append in Heq. cbn [String.length] in Heq. lia.
  - cbn in Heq. injection Heq as -> Heq. f_equal. by apply IH.
Qed.

(** X14.  The task the loop gives the team names the symbol and nothing
    else of the caller: different symbols give different tasks. *)
Theorem analysis_task_distinguishes_symbols (stock1 stock2 : string) :
  stock1 <> stock2 -> analysis_task stock1 <> analysis_task stock2.
Proof.
  intros Hne Heq. apply Hne. unfold analysis_task in Heq.
  simpl in Heq. simplify_eq. by eapply append_inv_tail.
Qed.

Lemma analysis_task_distinguishes_symbols_witness :
  "ICICIBANK.NS" <> "ICICIBANK.BO" /\
  analysis_task "ICICIBANK.NS" <> analysis_task "ICICIBANK.BO".
Proof.
  assert (Hne : "ICICIBANK.NS" <> "ICICIBANK.BO") by discriminate.
  split; [exact Hne|].
  exact (analysis_task_distinguishes_symbols "ICICIBANK.NS" "ICICIBANK.BO" Hne).
Defined.

(** X15.  The answer of [realtime_stock_price_tool] is decided by the
    last bar of the history alone: two feeds that differ only in the
    history they give, and whose histories for the symbol end with the
    same bar (or are both empty), get the same answer, whatever the
    earlier bars are. *)
Theorem realtime_stock_price_tool_last_bar_only (T F : Type)
    (history1 history2 : string -> string -> string -> list (T * F))
    (fmt_time : T -> string -> string) (fmt_price : F -> string) (stock_name : string) :
  last (history1 stock_name "1d" "1m") = last (history2 stock_name "1d" "1m") ->
  @realtime_stock_price_tool
    {| Timestamp := T; float := F; history := history1;
       strftime := fmt_time; format_2f := fmt_price |} stock_name
  = @realtime_stock_price_tool
      {| Timestamp := T; float := F; history := history2;
         strftime := fmt_time; format_2f := fmt_price |} stock_name.
Proof.
  unfold realtime_stock_price_tool. simpl. intros Hlast.
  destruct (history1 stock_name "1d" "1m") as [|row1 rest1] eqn:H1;
    destruct (history2 stock_name "1d" "1m") as [|row2 rest2] eqn:H2.
  - done.
  - symmetry in Hlast. by apply last_None in Hlast.
  - by apply last_None in Hlast.
  - simpl empty. cbv iota. by rewrite Hlast.
Qed.

Lemma realtime_stock_price_tool_last_bar_only_witness :
  last [("15:28", 143700%Z); ("15:29", 143750%Z)] = last [("15:29", 143750%Z)] /\
  @realtime_stock_price_tool
    {| Timestamp := string; float := Z;
       history := fun _ _ _ => [("15:28", 143700%Z); ("15:29", 143750%Z)];
       strftime := fun t _ => t; format_2f := paise_2f |} "ICICIBANK.NS"
  = @realtime_stock_price_tool
      {| Timestamp := string; float := Z;
         history := fun _ _ _ => [("15:29", 143750%Z)];
         strftime := fun t _ => t; format_2f := paise_2f |} "ICICIBANK.NS".
Proof.
  split; [reflexivity|].
  apply (realtime_stock_price_tool_last_bar_only string Z
           (fun _ _ _ => [("15:28", 143700%Z); ("15:29", 143750%Z)])
           (fun _ _ _ => [("15:29", 143750%Z)])
           (fun t _ => t) paise_2f "ICICIBANK.NS").
  reflexivity.
Defined.
